(** * sem4-chat: the application controller

    A shallow embedding of [server/src/controller/Controller.js] and the
    properties of its public operations: [login], [isLoggedIn], [addMsg],
    [findMsg], [findAllMsgs] and [deleteMsg].

    The controller is asynchronous JavaScript that validates its arguments,
    reads the wall clock through [moment], mutates [UserDTO] objects in place
    and awaits a [ChatDAO].  It is embedded as a state-and-exception monad
    over a [World] holding the DAO's store, the heap of [UserDTO] objects,
    the wall clock and the trace of DAO calls made so far. *)

From Stdlib Require Import ZArith List String Ascii Bool Lia.
From stdpp Require Import base option list.

Open Scope string_scope.
Open Scope list_scope.
Open Scope Z_scope.

(** ** Results of an operation: a returned value or a thrown exception *)

Inductive Error : Type :=
| ValidationError    (* a Validators assertion failed *)
| PersistenceError   (* raised by the ChatDAO *)
| TypeError.         (* property access on a value that is not an object *)

Inductive Outcome (A : Type) : Type :=
| Return (a : A)
| Throw (e : Error).
Arguments Return {A} a.
Arguments Throw {A} e.

(** ** JavaScript values the controller handles *)

(** An address of a [UserDTO] object on the heap. *)
Definition loc := nat.

(** A JavaScript number as far as the controller computes with one: an
    integral number of milliseconds, or NaN. *)
Inductive JsNumber : Type :=
| Num (z : Z)
| NaN.

Definition js_add (a b : JsNumber) : JsNumber :=
  match a, b with
  | Num x, Num y => Num (x + y)
  | _, _ => NaN
  end.

(** What the [loggedInUntil] field of a user can hold: nothing, or a [Date]
    with its time value in milliseconds since the epoch. *)
Inductive Timestamp : Type :=
| TsUndefined
| TsNull
| TsDate (ms : Z)
| TsInvalidDate.

(** [new Date(number)]: the time value is clipped to the range of [Date],
    +-8.64e15 ms around the epoch; outside of it the date is invalid. *)
Definition MAX_TIME : Z := 8640000000000000.

Definition new_Date (n : JsNumber) : Timestamp :=
  match n with
  | Num x => if Z.abs x <=? MAX_TIME then TsDate x else TsInvalidDate
  | NaN => TsInvalidDate
  end.

(** Modelled from the spec: the [UserDTO] class (model/UserDTO.js is not part
    of the sources at hand).  A user is identified by a unique username and
    carries a [loggedInUntil] timestamp that is absent for a user who never
    logged in. *)
Record UserDTO : Type := mkUserDTO {
  username : string;
  loggedInUntil : Timestamp
}.

Definition set_loggedInUntil (t : Timestamp) (u : UserDTO) : UserDTO :=
  mkUserDTO (username u) t.

(** Modelled from the spec: the message DTO (its class is not part of the
    sources at hand).  A message has a positive integer id assigned by the
    store, a body text and its author. *)
Record MsgDTO : Type := mkMsgDTO {
  msgId : Z;
  msgBody : string;
  msgAuthor : UserDTO
}.

(** The argument a caller may pass as the [author] of a message. *)
Inductive Value : Type :=
| VUndefined
| VNull
| VString (s : string)
| VNumber (n : JsNumber)
| VPlainObject
| VUserDTO (l : loc).

(** ** The moment library, as far as the controller uses it *)

Module Moment.

(** A moment object wraps a date and may be invalid. *)
Inductive t : Type :=
| Valid (ms : Z)
| Invalid.

(** [a.isBefore(b)]: false as soon as one of the two is invalid, and a
    comparison of the millisecond values otherwise. *)
Definition isBefore (a b : t) : bool :=
  match a, b with
  | Valid x, Valid y => x <? y
  | _, _ => false
  end.

(** [m.valueOf()], used by [moment() + duration]. *)
Definition valueOf (m : t) : JsNumber :=
  match m with
  | Valid ms => Num ms
  | Invalid => NaN
  end.

(** [moment.duration({hours: h}).valueOf()] in milliseconds. *)
Definition duration_hours (h : Z) : JsNumber := Num (h * 3600000).

End Moment.

(** ** The collaborators of the controller *)

(** The operations the controller awaits on [this.chatDAO].  [DB] is the state
    of the database behind the DAO; every operation may throw. *)
Module ChatDAO.

Record t (DB : Type) : Type := make {
  createTables : DB -> Outcome unit * DB;
  findUserByUsername : string -> DB -> Outcome (list UserDTO) * DB;
  updateUser : UserDTO -> DB -> Outcome unit * DB;
  createMsg : string -> UserDTO -> DB -> Outcome MsgDTO * DB;
  findMsgById : Z -> DB -> Outcome (option MsgDTO) * DB;
  findAllMsgs : DB -> Outcome (list MsgDTO) * DB;
  deleteMsg : Z -> DB -> Outcome unit * DB
}.
Arguments createTables {DB} _ _.
Arguments findUserByUsername {DB} _ _ _.
Arguments updateUser {DB} _ _ _.
Arguments createMsg {DB} _ _ _ _.
Arguments findMsgById {DB} _ _ _.
Arguments findAllMsgs {DB} _ _.
Arguments deleteMsg {DB} _ _ _.

End ChatDAO.

(** A call of a DAO operation, as recorded in the trace of a world. *)
Inductive DaoCall : Type :=
| CallCreateTables
| CallFindUserByUsername (name : string)
| CallUpdateUser (u : UserDTO)
| CallCreateMsg (msg : string) (author : UserDTO)
| CallFindMsgById (id : Z)
| CallFindAllMsgs
| CallDeleteMsg (id : Z).

(** The DAO operations that write to the database. *)
Definition mutating (c : DaoCall) : bool :=
  match c with
  | CallCreateTables | CallUpdateUser _ | CallCreateMsg _ _ | CallDeleteMsg _ => true
  | CallFindUserByUsername _ | CallFindMsgById _ | CallFindAllMsgs => false
  end.

(** Modelled from the spec: the argument checks of util/Validators.js (the
    file is not part of the sources at hand).  Each check is an assertion: it
    returns nothing when the value is acceptable and throws otherwise. *)
Module Validators.

Definition check (b : bool) : Outcome unit :=
  if b then Return tt else Throw ValidationError.

Definition isNonZeroLengthString (value : string) : Outcome unit :=
  check (negb (Nat.eqb (String.length value) 0)).

Definition is_alnum (c : ascii) : bool :=
  let n := nat_of_ascii c in
  ((48 <=? n) && (n <=? 57) || (65 <=? n) && (n <=? 90)
   || (97 <=? n) && (n <=? 122))%nat.

Fixpoint all_alnum (s : string) : bool :=
  match s with
  | EmptyString => true
  | String c rest => is_alnum c && all_alnum rest
  end.

(** An alphanumeric string has at least one character. *)
Definition isAlnumString (value : string) : Outcome unit :=
  check (negb (Nat.eqb (String.length value) 0) && all_alnum value).

Definition isPositiveInteger (value : Z) : Outcome unit :=
  check (1 <=? value).

(** [value instanceof UserDTO] *)
Definition isInstanceOfUserDTO (value : Value) : Outcome unit :=
  check (match value with VUserDTO _ => true | _ => false end).

End Validators.

(** ** The world an operation runs in *)

Record World (DB : Type) : Type := mkWorld {
  store : DB;                (* the database behind the DAO *)
  heap : list UserDTO;       (* the UserDTO objects alive, by address *)
  clock : nat -> Z;          (* the k-th reading of the wall clock, in ms *)
  reads : nat;               (* how often the clock has been read *)
  calls : list DaoCall       (* the DAO calls made so far, oldest first *)
}.
Arguments mkWorld {DB} _ _ _ _ _.
Arguments store {DB} _.
Arguments heap {DB} _.
Arguments clock {DB} _.
Arguments reads {DB} _.
Arguments calls {DB} _.

(** A computation of the controller: it runs in a world, and returns or
    throws in the world it leaves behind. *)
Definition M (DB A : Type) : Type := World DB -> Outcome A * World DB.

Definition ret {DB A} (a : A) : M DB A := fun w => (Return a, w).

Definition bind {DB A B} (c : M DB A) (k : A -> M DB B) : M DB B :=
  fun w =>
    match c w with
    | (Return a, w') => k a w'
    | (Throw e, w') => (Throw e, w')
    end.

(** A synchronous check: it returns or throws and leaves the world alone. *)
Definition sync {DB A} (o : Outcome A) : M DB A := fun w => (o, w).

Declare Scope ctrl_scope.
Delimit Scope ctrl_scope with ctrl.
Notation "x <- c ;; k" := (bind c (fun x => k))
  (at level 100, c at next level, right associativity) : ctrl_scope.
Notation "c ;; k" := (bind c (fun _ => k))
  (at level 100, right associativity) : ctrl_scope.
Open Scope ctrl_scope.

(** ** Primitive steps on the world *)

(** One reading of the wall clock ([Date.now()]). *)
Definition read_clock {DB} : M DB Z :=
  fun w =>
    (Return (clock w (reads w)),
     mkWorld (store w) (heap w) (clock w) (S (reads w)) (calls w)).

(** [await dao.op(...)]: the operation runs on the store and the call is
    appended to the trace, whether it returns or throws. *)
Definition await {DB A} (c : DaoCall) (op : DB -> Outcome A * DB) : M DB A :=
  fun w =>
    let (r, st) := op (store w) in
    (r, mkWorld st (heap w) (clock w) (reads w) (calls w ++ [c])).

(** Modelled from the spec: integration/ChatDAO.js is not part of the sources
    at hand, and neither the sources nor the spec say which objects a lookup
    answers with.  They are taken to be new ones, made by the DAO for this
    answer from the rows it read: they are put at the end of the heap and
    known by address.  This is an assumption on the absent DAO.  The
    properties below use it to name the objects of an answer; that an object
    alive before a call is not among them is the assumption itself and no
    finding about the controller. *)
Definition alloc {DB} (rows : list UserDTO) : M DB (list loc) :=
  fun w =>
    (Return (seq (length (heap w)) (length rows)),
     mkWorld (store w) (heap w ++ rows) (clock w) (reads w) (calls w)).

(** Reading the object at an address. *)
Definition deref {DB} (l : loc) : M DB UserDTO :=
  fun w =>
    match heap w !! l with
    | Some u => (Return u, w)
    | None => (Throw TypeError, w)
    end.

(** [user.loggedInUntil = t]: the object at [l] is changed in place, so every
    holder of the address sees the new field. *)
Definition assign_loggedInUntil {DB} (l : loc) (t : Timestamp) : M DB unit :=
  fun w =>
    (Return tt,
     mkWorld (store w) (alter (set_loggedInUntil t) l (heap w))
             (clock w) (reads w) (calls w)).

(** [moment()]: the current time. *)
Definition moment_now {DB} : M DB Moment.t :=
  ms <- read_clock ;; ret (Moment.Valid ms).

(** [moment(input)] for the value of a [loggedInUntil] field.  An undefined
    input is the same as no input, a null input gives an invalid moment, a
    date is wrapped.  The answer is a moment object in every case and never
    null; it is typed as an option for the controller's comparison of it with
    null. *)
Definition moment {DB} (input : Timestamp) : M DB (option Moment.t) :=
  match input with
  | TsUndefined => m <- moment_now ;; ret (Some m)
  | TsNull => ret (Some Moment.Invalid)
  | TsDate ms => ret (Some (Moment.Valid ms))
  | TsInvalidDate => ret (Some Moment.Invalid)
  end.

(** ** The controller *)

Module Controller.

Section WithDAO.

Context {DB : Type} (chatDAO : ChatDAO.t DB).

(** [static async createController()] *)
Definition createController : M DB unit :=
  await CallCreateTables (ChatDAO.createTables chatDAO).

(** [async setUsersStatusToLoggedIn(user)].  The sum [moment() + period]
    adds the two millisecond values; the date made of it is stored in the
    object, and the object as it then is goes to [updateUser]. *)
Definition setUsersStatusToLoggedIn (user : loc) : M DB unit :=
  let periodToStayLoggedIn := Moment.duration_hours 24 in
  m <- moment_now ;;
  assign_loggedInUntil user
    (new_Date (js_add (Moment.valueOf m) periodToStayLoggedIn)) ;;
  u <- deref user ;;
  await (CallUpdateUser u) (ChatDAO.updateUser chatDAO u).

(** [async login(username)] *)
Definition login (username : string) : M DB (option loc) :=
  sync (Validators.isNonZeroLengthString username) ;;
  sync (Validators.isAlnumString username) ;;
  rows <- await (CallFindUserByUsername username)
                (ChatDAO.findUserByUsername chatDAO username) ;;
  users <- alloc rows ;;
  match users with
  | [] => ret None                          (* users.length === 0 *)
  | user0 :: _ =>
      let loggedInUser := user0 in          (* the address held in users[0] *)
      setUsersStatusToLoggedIn user0 ;;
      ret (Some loggedInUser)
  end.

(** [async isLoggedIn(username)] *)
Definition isLoggedIn (username : string) : M DB (option loc) :=
  sync (Validators.isNonZeroLengthString username) ;;
  sync (Validators.isAlnumString username) ;;
  rows <- await (CallFindUserByUsername username)
                (ChatDAO.findUserByUsername chatDAO username) ;;
  users <- alloc rows ;;
  match users with
  | [] => ret None                          (* users.length === 0 *)
  | user0 :: _ =>
      let loggedInUser := user0 in
      u <- deref loggedInUser ;;
      loginExpires <- moment (loggedInUntil u) ;;
      match loginExpires with
      | None => ret None                    (* loginExpires === null *)
      | Some loginExpires =>
          now <- moment_now ;;
          if Moment.isBefore loginExpires now then ret None
          else ret (Some loggedInUser)
      end
  end.

(** [async addMsg(msg, author)].  Past the instance check the author is a
    [UserDTO] object, whose fields the DAO reads. *)
Definition addMsg (msg : string) (author : Value) : M DB MsgDTO :=
  sync (Validators.isNonZeroLengthString msg) ;;
  sync (Validators.isInstanceOfUserDTO author) ;;
  match author with
  | VUserDTO l =>
      u <- deref l ;;
      await (CallCreateMsg msg u) (ChatDAO.createMsg chatDAO msg u)
  | _ => sync (Throw TypeError)
  end.

(** [async findMsg(msgId)] *)
Definition findMsg (msgId : Z) : M DB (option MsgDTO) :=
  sync (Validators.isPositiveInteger msgId) ;;
  await (CallFindMsgById msgId) (ChatDAO.findMsgById chatDAO msgId).

(** [async findAllMsgs()] *)
Definition findAllMsgs : M DB (list MsgDTO) :=
  await CallFindAllMsgs (ChatDAO.findAllMsgs chatDAO).

(** [async deleteMsg(msgId)] *)
Definition deleteMsg (msgId : Z) : M DB unit :=
  sync (Validators.isPositiveInteger msgId) ;;
  await (CallDeleteMsg msgId) (ChatDAO.deleteMsg chatDAO msgId).

(** A call of one of the public operations, as the transport layer makes
    it, and what the caller gets back. *)
Inductive Request : Type :=
| Login (username : string)
| IsLoggedIn (username : string)
| AddMsg (msg : string) (author : Value)
| FindMsg (msgId : Z)
| FindAllMsgs
| DeleteMsg (msgId : Z).

Inductive Response : Type :=
| User (u : option loc)
| Msg (m : MsgDTO)
| MaybeMsg (m : option MsgDTO)
| Msgs (ms : list MsgDTO)
| Done.

Definition perform (r : Request) : M DB Response :=
  match r with
  | Login username => u <- login username ;; ret (User u)
  | IsLoggedIn username => u <- isLoggedIn username ;; ret (User u)
  | AddMsg msg author => m <- addMsg msg author ;; ret (Msg m)
  | FindMsg msgId => m <- findMsg msgId ;; ret (MaybeMsg m)
  | FindAllMsgs => ms <- findAllMsgs ;; ret (Msgs ms)
  | DeleteMsg msgId => deleteMsg msgId ;; ret Done
  end.

(** A series of calls, one after the other; a call that throws does not keep
    the following ones from running.  The answer lists the outcomes in the
    order of the calls. *)
Fixpoint serve (rs : list Request) (w : World DB)
  : list (Outcome Response) * World DB :=
  match rs with
  | [] => ([], w)
  | r :: rest =>
      let (o, w1) := perform r w in
      let (os, w2) := serve rest w1 in
      (o :: os, w2)
  end.

End WithDAO.

Arguments Request : clear implicits.

End Controller.

(** ** An in-memory DAO *)

(** Modelled from the spec: integration/ChatDAO.js is not part of the sources
    at hand.  The store keeps the users, the messages in the order of their
    insertion, and the id the next message gets; ids are positive integers
    assigned by the store.  No operation of this DAO throws. *)
Module MemDAO.

Record Store : Type := mkStore {
  users : list UserDTO;
  msgs : list MsgDTO;
  nextMsgId : Z
}.

Definition empty : Store := mkStore [] [] 1.

Definition has_username (name : string) (u : UserDTO) : bool :=
  String.eqb (username u) name.

Definition has_id (id : Z) (m : MsgDTO) : bool := msgId m =? id.

Definition createTables (st : Store) : Outcome unit * Store :=
  (Return tt, st).

Definition findUserByUsername (name : string) (st : Store)
  : Outcome (list UserDTO) * Store :=
  (Return (List.filter (has_username name) (users st)), st).

Definition updateUser (u : UserDTO) (st : Store) : Outcome unit * Store :=
  (Return tt,
   mkStore (map (fun row => if has_username (username u) row then u else row)
                (users st))
           (msgs st) (nextMsgId st)).

Definition createMsg (msg : string) (author : UserDTO) (st : Store)
  : Outcome MsgDTO * Store :=
  let m := mkMsgDTO (nextMsgId st) msg author in
  (Return m, mkStore (users st) (msgs st ++ [m]) (nextMsgId st + 1)).

Definition findMsgById (id : Z) (st : Store)
  : Outcome (option MsgDTO) * Store :=
  (Return (List.find (has_id id) (msgs st)), st).

Definition findAllMsgs (st : Store) : Outcome (list MsgDTO) * Store :=
  (Return (msgs st), st).

Definition deleteMsg (id : Z) (st : Store) : Outcome unit * Store :=
  (Return tt,
   mkStore (users st)
           (List.filter (fun m => negb (has_id id m)) (msgs st))
           (nextMsgId st)).

Definition dao : ChatDAO.t Store :=
  ChatDAO.make Store createTables findUserByUsername updateUser createMsg
               findMsgById findAllMsgs deleteMsg.

(** The ids in use are positive and below the next id to hand out. *)
Definition ids_fresh (st : Store) : Prop :=
  0 < nextMsgId st /\
  Forall (fun m => 0 < msgId m < nextMsgId st) (msgs st).

End MemDAO.

(** A world around a store of the in-memory DAO: an empty heap, no DAO call
    made yet, and a clock that stands at [now]. *)
Definition world_at (now : Z) (st : MemDAO.Store) : World MemDAO.Store :=
  mkWorld st [] (fun _ => now) 0%nat [].

(** ** Vocabulary of the properties *)

(** The period a login lasts, 24 hours in milliseconds. *)
Definition DAY : Z := 86400000.

(** A username the controller accepts: not empty, letters and digits only. *)
Definition alphanumeric (s : string) : Prop :=
  s <> "" /\ Validators.all_alnum s = true.

(** A call with an argument the controller must refuse: an empty or not
    alphanumeric username, an empty message text, an author that is not a
    [UserDTO], a message id that is not a positive integer. *)
Definition invalid_input (r : Controller.Request) : Prop :=
  match r with
  | Controller.Login name | Controller.IsLoggedIn name =>
      name = "" \/ Validators.all_alnum name = false
  | Controller.AddMsg msg author =>
      msg = "" \/ (forall l, author <> VUserDTO l)
  | Controller.FindMsg id | Controller.DeleteMsg id => id <= 0
  | Controller.FindAllMsgs => False
  end.

(** A call of [deleteMsg]. *)
Definition is_delete (r : Controller.Request) : bool :=
  match r with
  | Controller.DeleteMsg _ => true
  | _ => false
  end.

(** The number of [addMsg] calls in a series that returned a message. *)
Fixpoint added (rs : list Controller.Request)
         (os : list (Outcome Controller.Response)) : nat :=
  match rs, os with
  | Controller.AddMsg _ _ :: rs', Return _ :: os' => S (added rs' os')
  | _ :: rs', _ :: os' => added rs' os'
  | _, _ => O
  end.

(** The DAO calls made between two worlds. *)
Definition calls_since {DB} (w w' : World DB) : list DaoCall :=
  drop (length (calls w)) (calls w').

(** Sample data: a store with a user who never logged in and a user whose
    login expires at time 1000. *)
Definition alice : UserDTO := mkUserDTO "alice" TsNull.
Definition bob : UserDTO := mkUserDTO "bob" (TsDate 1000).
Definition sample_store : MemDAO.Store := MemDAO.mkStore [alice; bob] [] 1.

(** The worlds around the sample store when the clock stands at 5, at 1000
    and at 1001. *)
Definition world_at_5 : World MemDAO.Store := world_at 5 sample_store.
Definition world_at_1000 : World MemDAO.Store := world_at 1000 sample_store.
Definition world_at_1001 : World MemDAO.Store := world_at 1001 sample_store.

(** A series of calls: a login, two messages added, two refused, a lookup. *)
Definition sample_calls : list Controller.Request :=
  [Controller.Login "alice";
   Controller.AddMsg "hello" (VUserDTO 0%nat);
   Controller.AddMsg "" (VUserDTO 0%nat);
   Controller.AddMsg "x" VPlainObject;
   Controller.AddMsg "again" (VUserDTO 0%nat);
   Controller.FindMsg 1].

(** A call whose arguments pass the checks of the controller; the author of
    a message is then the address of a live [UserDTO] object. *)
Definition valid_request {DB} (w : World DB) (r : Controller.Request) : Prop :=
  match r with
  | Controller.Login name | Controller.IsLoggedIn name => alphanumeric name
  | Controller.AddMsg msg author =>
      msg <> "" /\ exists l u, author = VUserDTO l /\ heap w !! l = Some u
  | Controller.FindMsg id | Controller.DeleteMsg id => 0 < id
  | Controller.FindAllMsgs => True
  end.

(** The DAO calls a public operation may make, in their order. *)
Definition call_discipline (r : Controller.Request) (cs : list DaoCall) : Prop :=
  match r with
  | Controller.Login name =>
      cs = [] \/ cs = [CallFindUserByUsername name] \/
      exists u, cs = [CallFindUserByUsername name; CallUpdateUser u]
  | Controller.IsLoggedIn name =>
      cs = [] \/ cs = [CallFindUserByUsername name]
  | Controller.AddMsg msg _ => cs = [] \/ exists u, cs = [CallCreateMsg msg u]
  | Controller.FindMsg id => cs = [] \/ cs = [CallFindMsgById id]
  | Controller.FindAllMsgs => cs = [CallFindAllMsgs]
  | Controller.DeleteMsg id => cs = [] \/ cs = [CallDeleteMsg id]
  end.

Definition map_outcome {A B} (f : A -> B) (o : Outcome A) : Outcome B :=
  match o with
  | Return a => Return (f a)
  | Throw e => Throw e
  end.

(** The one DAO operation behind a call on messages: the call as it is
    recorded, its outcome as the caller sees it, and the store it leaves. *)
Definition dao_operation {DB} (dao : ChatDAO.t DB) (w : World DB)
           (r : Controller.Request)
  : option (DaoCall * Outcome Controller.Response * DB) :=
  match r with
  | Controller.AddMsg msg (VUserDTO l) =>
      match heap w !! l with
      | Some u =>
          let (o, st) := ChatDAO.createMsg dao msg u (store w) in
          Some (CallCreateMsg msg u, map_outcome Controller.Msg o, st)
      | None => None
      end
  | Controller.FindMsg id =>
      let (o, st) := ChatDAO.findMsgById dao id (store w) in
      Some (CallFindMsgById id, map_outcome Controller.MaybeMsg o, st)
  | Controller.FindAllMsgs =>
      let (o, st) := ChatDAO.findAllMsgs dao (store w) in
      Some (CallFindAllMsgs, map_outcome Controller.Msgs o, st)
  | Controller.DeleteMsg id =>
      let (o, st) := ChatDAO.deleteMsg dao id (store w) in
      Some (CallDeleteMsg id, map_outcome (fun _ => Controller.Done) o, st)
  | _ => None
  end.

(** A DAO none of whose operations on users and messages throws. *)
Definition never_throws {DB} (dao : ChatDAO.t DB) : Prop :=
  (forall name st e, fst (ChatDAO.findUserByUsername dao name st) <> Throw e) /\
  (forall u st e, fst (ChatDAO.updateUser dao u st) <> Throw e) /\
  (forall msg u st e, fst (ChatDAO.createMsg dao msg u st) <> Throw e) /\
  (forall id st e, fst (ChatDAO.findMsgById dao id st) <> Throw e) /\
  (forall st e, fst (ChatDAO.findAllMsgs dao st) <> Throw e) /\
  (forall id st e, fst (ChatDAO.deleteMsg dao id st) <> Throw e).

(** Sample collaborators that fail: a database that cannot be reached, and
    the in-memory store behind a connection that refuses every write. *)
Definition unreachable_dao : ChatDAO.t unit :=
  ChatDAO.make unit
    (fun st => (Throw PersistenceError, st))
    (fun _ st => (Throw PersistenceError, st))
    (fun _ st => (Throw PersistenceError, st))
    (fun _ _ st => (Throw PersistenceError, st))
    (fun _ st => (Throw PersistenceError, st))
    (fun st => (Throw PersistenceError, st))
    (fun _ st => (Throw PersistenceError, st)).

Definition readonly_dao : ChatDAO.t MemDAO.Store :=
  ChatDAO.make MemDAO.Store
    (fun st => (Throw PersistenceError, st))
    MemDAO.findUserByUsername
    (fun _ st => (Throw PersistenceError, st))
    (fun _ _ st => (Throw PersistenceError, st))
    MemDAO.findMsgById
    MemDAO.findAllMsgs
    (fun _ st => (Throw PersistenceError, st)).

(** Two rows under one name, as a store without a unique key could hold. *)
Definition bob_again : UserDTO := mkUserDTO "bob" TsNull.
Definition twin_store : MemDAO.Store := MemDAO.mkStore [bob; bob_again] [] 1.

(** A user whose stored expiry is not a valid date, and one without the field. *)
Definition dave : UserDTO := mkUserDTO "dave" TsInvalidDate.
Definition erin : UserDTO := mkUserDTO "erin" TsUndefined.
Definition odd_store : MemDAO.Store := MemDAO.mkStore [dave; erin] [] 1.

(** Worlds for the sample collaborators; in the last the clock advances by a
    millisecond with every reading. *)
Definition world_unreachable : World unit :=
  mkWorld tt [] (fun _ => 5) 0%nat [].
Definition world_twins : World MemDAO.Store := world_at 5 twin_store.
Definition world_odd : World MemDAO.Store := world_at 5 odd_store.
Definition world_ticking : World MemDAO.Store :=
  mkWorld odd_store [] (fun k => 5 + Z.of_nat k) 0%nat [].

(** ** The argument checks *)

Lemma length_zero_empty (s : string) : Nat.eqb (String.length s) 0 = true <-> s = "".
Proof.
  destruct s; simpl; split; intro H; try reflexivity; discriminate.
Qed.

Lemma isNonZeroLengthString_accepts (s : string) :
  s <> "" -> Validators.isNonZeroLengthString s = Return tt.
Proof.
  intro H. unfold Validators.isNonZeroLengthString.
  destruct (Nat.eqb (String.length s) 0) eqn:E; [|reflexivity].
  apply length_zero_empty in E. contradiction.
Qed.

Lemma isNonZeroLengthString_refuses :
  Validators.isNonZeroLengthString "" = Throw ValidationError.
Proof. reflexivity. Qed.

Lemma isAlnumString_accepts (s : string) :
  alphanumeric s -> Validators.isAlnumString s = Return tt.
Proof.
  intros [Hne Hal]. unfold Validators.isAlnumString. rewrite Hal.
  destruct (Nat.eqb (String.length s) 0) eqn:E; [|reflexivity].
  apply length_zero_empty in E. contradiction.
Qed.

Lemma isAlnumString_refuses (s : string) :
  Validators.all_alnum s = false ->
  Validators.isAlnumString s = Throw ValidationError.
Proof.
  intro H. unfold Validators.isAlnumString. rewrite H.
  rewrite andb_false_r. reflexivity.
Qed.

Lemma isPositiveInteger_accepts (id : Z) :
  0 < id -> Validators.isPositiveInteger id = Return tt.
Proof.
  intro H. unfold Validators.isPositiveInteger.
  destruct (1 <=? id) eqn:E; [reflexivity | apply Z.leb_gt in E; lia].
Qed.

Lemma isPositiveInteger_refuses (id : Z) :
  id <= 0 -> Validators.isPositiveInteger id = Throw ValidationError.
Proof.
  intro H. unfold Validators.isPositiveInteger.
  destruct (1 <=? id) eqn:E; [apply Z.leb_le in E; lia | reflexivity].
Qed.

Lemma isInstanceOfUserDTO_refuses (v : Value) :
  (forall l, v <> VUserDTO l) ->
  Validators.isInstanceOfUserDTO v = Throw ValidationError.
Proof.
  intro H. destruct v; try reflexivity. exfalso. exact (H l eq_refl).
Qed.

(** ** Objects on the heap *)

Lemma alter_fresh {A} (f : A -> A) (l1 l2 : list A) (x : A) :
  alter f (length l1) (l1 ++ x :: l2) = l1 ++ f x :: l2.
Proof.
  induction l1 as [|y l1 IH]; simpl; [reflexivity|].
  f_equal. exact IH.
Qed.

Lemma lookup_fresh {A} (l1 l2 : list A) (x : A) :
  (l1 ++ x :: l2) !! length l1 = Some x.
Proof. apply list_lookup_middle. reflexivity. Qed.

(** ** Dates *)

Lemma day_is_24_hours : Moment.duration_hours 24 = Num DAY.
Proof. reflexivity. Qed.

Lemma new_Date_in_range (x : Z) :
  Z.abs x <= MAX_TIME -> new_Date (Num x) = TsDate x.
Proof.
  intro H. unfold new_Date.
  destruct (Z.abs x <=? MAX_TIME) eqn:E; [reflexivity|].
  apply Z.leb_gt in E. lia.
Qed.

(** ** The controller over any DAO *)

Section ControllerFacts.

Context {DB : Type} (dao : ChatDAO.t DB).

(** Both operations on users start alike: two checks of the username and
    one lookup.  With a username that passes the checks the lookup is made. *)
Ltac checks_pass Hname :=
  rewrite (isNonZeroLengthString_accepts _ (proj1 Hname)); simpl;
  rewrite (isAlnumString_accepts _ Hname); simpl.

Lemma login_not_found (w : World DB) (name : string) (st : DB) :
  alphanumeric name ->
  ChatDAO.findUserByUsername dao name (store w) = (Return [], st) ->
  Controller.login dao name w =
  (Return None,
   mkWorld st (heap w) (clock w) (reads w)
           (calls w ++ [CallFindUserByUsername name])).
Proof.
  intros Hname Hfind.
  unfold Controller.login, bind, sync, await, alloc, ret.
  checks_pass Hname. rewrite Hfind. simpl. rewrite app_nil_r. reflexivity.
Qed.

Lemma isLoggedIn_not_found (w : World DB) (name : string) (st : DB) :
  alphanumeric name ->
  ChatDAO.findUserByUsername dao name (store w) = (Return [], st) ->
  Controller.isLoggedIn dao name w =
  (Return None,
   mkWorld st (heap w) (clock w) (reads w)
           (calls w ++ [CallFindUserByUsername name])).
Proof.
  intros Hname Hfind.
  unfold Controller.isLoggedIn, bind, sync, await, alloc, ret.
  checks_pass Hname. rewrite Hfind. simpl. rewrite app_nil_r. reflexivity.
Qed.

(** C4: for a valid username that the store does not know (the lookup
    answers with no user), [login] and [isLoggedIn] both return null; the
    result is a returned value, not a thrown exception. *)
Theorem unknown_user_gives_null (w : World DB) (name : string) (st : DB) :
  alphanumeric name ->
  ChatDAO.findUserByUsername dao name (store w) = (Return [], st) ->
  fst (Controller.login dao name w) = Return None /\
  fst (Controller.isLoggedIn dao name w) = Return None.
Proof.
  intros Hname Hfind.
  rewrite (login_not_found w name st Hname Hfind).
  rewrite (isLoggedIn_not_found w name st Hname Hfind).
  split; reflexivity.
Qed.

(** C5: a call with an invalid argument throws a validation error and
    leaves the world as it was: no DAO operation has been called (the trace
    of calls is the same) and the store is unchanged. *)
Theorem invalid_input_throws_before_dao (w : World DB) (r : Controller.Request) :
  invalid_input r ->
  Controller.perform dao r w = (Throw ValidationError, w).
Proof.
  destruct r as [name | name | msg author | id | | id]; simpl; intro H;
    unfold Controller.perform, Controller.login, Controller.isLoggedIn,
           Controller.addMsg, Controller.findMsg, Controller.deleteMsg,
           bind, sync.
  - destruct H as [-> | H]; [reflexivity|].
    rewrite (isAlnumString_refuses _ H).
    destruct (Validators.isNonZeroLengthString name) as [[]|e] eqn:E;
      [reflexivity|].
    unfold Validators.isNonZeroLengthString, Validators.check in E.
    destruct (negb _); [discriminate | congruence].
  - destruct H as [-> | H]; [reflexivity|].
    rewrite (isAlnumString_refuses _ H).
    destruct (Validators.isNonZeroLengthString name) as [[]|e] eqn:E;
      [reflexivity|].
    unfold Validators.isNonZeroLengthString, Validators.check in E.
    destruct (negb _); [discriminate | congruence].
  - destruct H as [-> | H]; [reflexivity|].
    rewrite (isInstanceOfUserDTO_refuses _ H).
    destruct (Validators.isNonZeroLengthString msg) as [[]|e] eqn:E;
      [reflexivity|].
    unfold Validators.isNonZeroLengthString, Validators.check in E.
    destruct (negb _); [discriminate | congruence].
  - rewrite (isPositiveInteger_refuses _ H). reflexivity.
  - contradiction.
  - rewrite (isPositiveInteger_refuses _ H). reflexivity.
Qed.

(** C10: for a valid username that the store does not know, [login] returns
    null after the lookup alone: [updateUser] is not called, no mutating DAO
    operation is, and with a lookup that only reads, the store and every
    user object are as before. *)
Theorem login_unknown_user_writes_nothing (w : World DB) (name : string) :
  alphanumeric name ->
  ChatDAO.findUserByUsername dao name (store w) = (Return [], store w) ->
  let w' := snd (Controller.login dao name w) in
  fst (Controller.login dao name w) = Return None /\
  calls_since w w' = [CallFindUserByUsername name] /\
  Forall (fun c => mutating c = false) (calls_since w w') /\
  store w' = store w /\
  heap w' = heap w.
Proof.
  intros Hname Hfind. cbv zeta.
  rewrite (login_not_found w name (store w) Hname Hfind). simpl.
  unfold calls_since. simpl. rewrite drop_app_length.
  repeat split. repeat constructor.
Qed.

(** What [isLoggedIn] leaves behind for a valid username, whatever the
    lookup answers: the store the lookup left, the lookup in the trace, the
    answered rows as new objects, and nothing else touched. *)
Lemma isLoggedIn_world (w : World DB) (name : string) :
  alphanumeric name ->
  let w' := snd (Controller.isLoggedIn dao name w) in
  store w' = snd (ChatDAO.findUserByUsername dao name (store w)) /\
  calls w' = calls w ++ [CallFindUserByUsername name] /\
  heap w' = heap w ++
            match fst (ChatDAO.findUserByUsername dao name (store w)) with
            | Return rows => rows
            | Throw _ => []
            end /\
  clock w' = clock w.
Proof.
  intros Hname.
  unfold Controller.isLoggedIn, bind, sync, await, alloc, ret.
  checks_pass Hname.
  destruct (ChatDAO.findUserByUsername dao name (store w)) as [[rows|e] st];
    simpl.
  - destruct rows as [|u rest]; simpl; [auto|].
    unfold deref. simpl. rewrite lookup_fresh.
    destruct (loggedInUntil u); simpl;
      try match goal with |- context [if ?b then _ else _] => destruct b end;
      simpl; auto.
  - rewrite app_nil_r. auto.
Qed.

(** C9: for a valid username [isLoggedIn] calls one DAO operation, the
    lookup, which is not a mutating one; it writes to no user object: the
    users the lookup answered are left exactly as answered, the one it
    returns included, and so is every other object; and with a lookup that
    only reads, the store after the call is the store before it. *)
Theorem isLoggedIn_writes_nothing (w : World DB) (name : string) :
  alphanumeric name ->
  snd (ChatDAO.findUserByUsername dao name (store w)) = store w ->
  let w' := snd (Controller.isLoggedIn dao name w) in
  calls_since w w' = [CallFindUserByUsername name] /\
  Forall (fun c => mutating c = false) (calls_since w w') /\
  store w' = store w /\
  heap w' = heap w ++
            match fst (ChatDAO.findUserByUsername dao name (store w)) with
            | Return rows => rows
            | Throw _ => []
            end.
Proof.
  intros Hname Hread. cbv zeta.
  destruct (isLoggedIn_world w name Hname) as (Hst & Hcalls & Hheap & _).
  unfold calls_since. rewrite Hcalls, drop_app_length.
  repeat split.
  - repeat constructor.
  - rewrite Hst. exact Hread.
  - exact Hheap.
Qed.

(** [isLoggedIn] when the lookup finds a user whose [loggedInUntil] is a
    date: one reading of the clock, and the user unless the date is before
    the reading. *)
Lemma isLoggedIn_found_date (w : World DB) (name : string)
      (u : UserDTO) (rest : list UserDTO) (st : DB) (d : Z) :
  alphanumeric name ->
  ChatDAO.findUserByUsername dao name (store w) = (Return (u :: rest), st) ->
  loggedInUntil u = TsDate d ->
  Controller.isLoggedIn dao name w =
  (if d <? clock w (reads w) then Return None
   else Return (Some (length (heap w))),
   mkWorld st (heap w ++ u :: rest) (clock w) (S (reads w))
           (calls w ++ [CallFindUserByUsername name])).
Proof.
  intros Hname Hfind Hdate.
  unfold Controller.isLoggedIn, bind, sync, await, alloc, ret.
  checks_pass Hname. rewrite Hfind. simpl.
  unfold deref. simpl. rewrite lookup_fresh, Hdate. simpl.
  destruct (d <? clock w (reads w)); reflexivity.
Qed.

(** [isLoggedIn] when the lookup finds a user whose [loggedInUntil] is null:
    the moment made of null is an invalid moment, not null, and an invalid
    moment is before nothing, so the user is returned. *)
Lemma isLoggedIn_found_null (w : World DB) (name : string)
      (u : UserDTO) (rest : list UserDTO) (st : DB) :
  alphanumeric name ->
  ChatDAO.findUserByUsername dao name (store w) = (Return (u :: rest), st) ->
  loggedInUntil u = TsNull ->
  Controller.isLoggedIn dao name w =
  (Return (Some (length (heap w))),
   mkWorld st (heap w ++ u :: rest) (clock w) (S (reads w))
           (calls w ++ [CallFindUserByUsername name])).
Proof.
  intros Hname Hfind Hnull.
  unfold Controller.isLoggedIn, bind, sync, await, alloc, ret.
  checks_pass Hname. rewrite Hfind. simpl.
  unfold deref. simpl. rewrite lookup_fresh, Hnull. reflexivity.
Qed.

(** [isLoggedIn] when the lookup finds a user without a [loggedInUntil]
    field: the moment made of undefined is the current time, so the clock is
    read twice and the user is returned unless it advanced in between. *)
Lemma isLoggedIn_found_undefined (w : World DB) (name : string)
      (u : UserDTO) (rest : list UserDTO) (st : DB) :
  alphanumeric name ->
  ChatDAO.findUserByUsername dao name (store w) = (Return (u :: rest), st) ->
  loggedInUntil u = TsUndefined ->
  Controller.isLoggedIn dao name w =
  (if clock w (reads w) <? clock w (S (reads w)) then Return None
   else Return (Some (length (heap w))),
   mkWorld st (heap w ++ u :: rest) (clock w) (S (S (reads w)))
           (calls w ++ [CallFindUserByUsername name])).
Proof.
  intros Hname Hfind Hundef.
  unfold Controller.isLoggedIn, bind, sync, await, alloc, ret.
  checks_pass Hname. rewrite Hfind. simpl.
  unfold deref. simpl. rewrite lookup_fresh, Hundef. simpl.
  destruct (clock w (reads w) <? clock w (S (reads w))); reflexivity.
Qed.

(** The moment the controller compares with null is never null. *)
Lemma moment_never_null (input : Timestamp) (w : World DB) :
  fst (moment input w) <> Return None.
Proof. destruct input; simpl; discriminate. Qed.

(** [login] when the lookup finds a user: the first user found gets a
    [loggedInUntil] of 24 hours past the reading of the clock, is handed to
    [updateUser] and returned. *)
Lemma login_found (w : World DB) (name : string)
      (u : UserDTO) (rest : list UserDTO) (st1 st2 : DB) :
  let now := clock w (reads w) in
  let u' := set_loggedInUntil (TsDate (now + DAY)) u in
  alphanumeric name ->
  ChatDAO.findUserByUsername dao name (store w) = (Return (u :: rest), st1) ->
  Z.abs (now + DAY) <= MAX_TIME ->
  ChatDAO.updateUser dao u' st1 = (Return tt, st2) ->
  Controller.login dao name w =
  (Return (Some (length (heap w))),
   mkWorld st2 (heap w ++ u' :: rest) (clock w) (S (reads w))
           (calls w ++ [CallFindUserByUsername name; CallUpdateUser u'])).
Proof.
  intros now u' Hname Hfind Hrange Hupd.
  unfold Controller.login, Controller.setUsersStatusToLoggedIn,
         moment_now, read_clock, assign_loggedInUntil, deref,
         bind, sync, await, alloc, ret.
  checks_pass Hname. rewrite Hfind. simpl.
  change (24 * 3600000) with DAY. fold now.
  apply Z.leb_le in Hrange. rewrite Hrange.
  rewrite alter_fresh, lookup_fresh. fold u'. simpl.
  rewrite Hupd. rewrite <- app_assoc. reflexivity.
Qed.

(** C1, as the code has it: when the user found has a date as
    [loggedInUntil], [isLoggedIn] returns null exactly when that date is
    strictly before the time read at the check, and returns the user exactly
    when the date is that time or later. *)
Theorem isLoggedIn_iff_not_before (w : World DB) (name : string)
      (u : UserDTO) (rest : list UserDTO) (st : DB) (d : Z) :
  alphanumeric name ->
  ChatDAO.findUserByUsername dao name (store w) = (Return (u :: rest), st) ->
  loggedInUntil u = TsDate d ->
  let now := clock w (reads w) in
  let r := Controller.isLoggedIn dao name w in
  (d < now <-> fst r = Return None) /\
  (now <= d <-> exists l, fst r = Return (Some l) /\ heap (snd r) !! l = Some u).
Proof.
  intros Hname Hfind Hdate now r. subst r.
  rewrite (isLoggedIn_found_date w name u rest st d Hname Hfind Hdate).
  fold now. destruct (d <? now) eqn:E; simpl.
  - apply Z.ltb_lt in E. split; split; intro H; try reflexivity; try lia.
    destruct H as (l & H & _). discriminate.
  - apply Z.ltb_ge in E. split; split; intro H; try lia; try discriminate.
    exists (length (heap w)). split; [reflexivity | apply lookup_fresh].
Qed.

(** C3: for a username the store knows, [login] sets the [loggedInUntil] of
    the user found to 24 hours past the time it reads from the clock, calls
    [updateUser] with the user so changed, and returns that very user, whose
    [loggedInUntil] is the new date. *)
Theorem login_extends_session (w : World DB) (name : string)
      (u : UserDTO) (rest : list UserDTO) (st1 st2 : DB) :
  let now := clock w (reads w) in
  let u' := set_loggedInUntil (TsDate (now + DAY)) u in
  alphanumeric name ->
  ChatDAO.findUserByUsername dao name (store w) = (Return (u :: rest), st1) ->
  Z.abs (now + DAY) <= MAX_TIME ->
  ChatDAO.updateUser dao u' st1 = (Return tt, st2) ->
  let r := Controller.login dao name w in
  exists l,
    fst r = Return (Some l) /\
    heap (snd r) !! l = Some u' /\
    loggedInUntil u' = TsDate (now + 24 * 3600000) /\
    calls_since w (snd r) = [CallFindUserByUsername name; CallUpdateUser u'] /\
    store (snd r) = st2.
Proof.
  intros now u' Hname Hfind Hrange Hupd r. subst r.
  rewrite (login_found w name u rest st1 st2 Hname Hfind Hrange Hupd).
  fold now. fold u'. exists (length (heap w)). simpl.
  repeat split.
  - apply lookup_fresh.
  - unfold calls_since. simpl. apply drop_app_length.
Qed.

End ControllerFacts.

(** ** The in-memory DAO *)

Lemma MemDAO_lookup_reads (name : string) (st : MemDAO.Store) :
  snd (ChatDAO.findUserByUsername MemDAO.dao name st) = st.
Proof. reflexivity. Qed.

(** A message with a fresh id is found at the end of the list. *)
Lemma find_fresh_id (ms : list MsgDTO) (m : MsgDTO) :
  Forall (fun m' => msgId m' < msgId m) ms ->
  List.find (MemDAO.has_id (msgId m)) (ms ++ [m]) = Some m.
Proof.
  induction 1 as [|m' ms Hlt _ IH]; simpl.
  - unfold MemDAO.has_id. rewrite Z.eqb_refl. reflexivity.
  - unfold MemDAO.has_id at 1.
    destruct (msgId m' =? msgId m) eqn:E; [apply Z.eqb_eq in E; lia|].
    exact IH.
Qed.

(** No message with a deleted id is left. *)
Lemma find_deleted_id (id : Z) (ms : list MsgDTO) :
  List.find (MemDAO.has_id id)
            (List.filter (fun m => negb (MemDAO.has_id id m)) ms) = None.
Proof.
  induction ms as [|m ms IH]; simpl; [reflexivity|].
  destruct (MemDAO.has_id id m) eqn:E; simpl; [exact IH|].
  rewrite E. exact IH.
Qed.

(** C6: in the in-memory store, adding a message with a non-empty text [msg]
    and a [UserDTO] author [u], and then looking up the id of the message
    that [addMsg] returned, finds that message: its body is [msg] and its
    author is [u]. *)
Theorem addMsg_then_findMsg (w : World MemDAO.Store) (msg : string)
      (l : loc) (u : UserDTO) :
  msg <> "" ->
  heap w !! l = Some u ->
  MemDAO.ids_fresh (store w) ->
  exists m w1 w2,
    Controller.addMsg MemDAO.dao msg (VUserDTO l) w = (Return m, w1) /\
    Controller.findMsg MemDAO.dao (msgId m) w1 = (Return (Some m), w2) /\
    msgBody m = msg /\
    msgAuthor m = u.
Proof.
  intros Hmsg Hl [Hnext Hids].
  unfold Controller.addMsg, Controller.findMsg, bind, sync, await, deref.
  rewrite (isNonZeroLengthString_accepts _ Hmsg). simpl. rewrite Hl. simpl.
  do 3 eexists. split; [reflexivity|]. simpl.
  rewrite (isPositiveInteger_accepts _ Hnext).
  unfold MemDAO.findMsgById. simpl.
  set (m := mkMsgDTO (MemDAO.nextMsgId (store w)) msg u).
  change (MemDAO.nextMsgId (store w)) with (msgId m) at 1.
  rewrite find_fresh_id.
  - repeat split.
  - eapply Forall_impl; [exact Hids|]. simpl. intros m' H. lia.
Qed.

(** C7: in the in-memory store, deleting a positive id and then looking it
    up returns null; the delete itself returns without an exception whether
    or not a message had that id. *)
Theorem deleteMsg_then_findMsg (w : World MemDAO.Store) (id : Z) :
  0 < id ->
  exists w1 w2,
    Controller.deleteMsg MemDAO.dao id w = (Return tt, w1) /\
    Controller.findMsg MemDAO.dao id w1 = (Return None, w2).
Proof.
  intros Hid.
  unfold Controller.deleteMsg, Controller.findMsg, bind, sync, await.
  rewrite (isPositiveInteger_accepts _ Hid). simpl.
  do 2 eexists. split; [reflexivity|].
  unfold MemDAO.findMsgById. simpl. rewrite find_deleted_id. reflexivity.
Qed.

(** ** Series of calls on the in-memory store *)

Ltac run_controller :=
  unfold Controller.perform, Controller.login, Controller.isLoggedIn,
         Controller.addMsg, Controller.findMsg, Controller.findAllMsgs,
         Controller.deleteMsg, Controller.setUsersStatusToLoggedIn,
         moment, moment_now, read_clock, assign_loggedInUntil, deref,
         bind, sync, await, alloc, ret,
         Validators.isNonZeroLengthString, Validators.isAlnumString,
         Validators.isPositiveInteger, Validators.isInstanceOfUserDTO,
         Validators.check.

Ltac split_cases :=
  repeat match goal with
         | |- context [if ?b then _ else _] => destruct b; simpl
         | |- context [match ?l !! ?i with _ => _ end] => destruct (l !! i); simpl
         | |- context [match loggedInUntil ?u with _ => _ end] =>
             destruct (loggedInUntil u); simpl
         end.

(** The store after one call, as far as messages go. *)
Lemma perform_messages (w : World MemDAO.Store) (r : Controller.Request) :
  let o := fst (Controller.perform MemDAO.dao r w) in
  let st := store w in
  let st' := store (snd (Controller.perform MemDAO.dao r w)) in
  match r, o with
  | Controller.AddMsg msg _, Return _ =>
      exists u,
        MemDAO.msgs st' =
          MemDAO.msgs st ++ [mkMsgDTO (MemDAO.nextMsgId st) msg u] /\
        MemDAO.nextMsgId st' = MemDAO.nextMsgId st + 1
  | Controller.DeleteMsg id, Return _ =>
      MemDAO.msgs st' =
        List.filter (fun m => negb (MemDAO.has_id id m)) (MemDAO.msgs st) /\
      MemDAO.nextMsgId st' = MemDAO.nextMsgId st
  | _, _ =>
      MemDAO.msgs st' = MemDAO.msgs st /\
      MemDAO.nextMsgId st' = MemDAO.nextMsgId st
  end.
Proof.
  destruct r as [name | name | msg author | id | | id]; cbv zeta; run_controller.
  - destruct (negb (Nat.eqb (String.length name) 0)); simpl; [|auto].
    destruct (Validators.all_alnum name); simpl; [|auto].
    destruct (List.filter _ _) as [|u rest]; simpl; [auto|].
    rewrite alter_fresh, lookup_fresh. simpl. auto.
  - destruct (negb (Nat.eqb (String.length name) 0)); simpl; [|auto].
    destruct (Validators.all_alnum name); simpl; [|auto].
    destruct (List.filter _ _) as [|u rest]; simpl; [auto|].
    rewrite lookup_fresh. simpl. split_cases; auto.
  - destruct (negb (Nat.eqb (String.length msg) 0)); simpl; [|auto].
    destruct author; simpl; auto.
    destruct (heap w !! l) as [u|]; simpl; [|auto].
    exists u. auto.
  - destruct (1 <=? id); simpl; auto.
  - simpl. auto.
  - destruct (1 <=? id); simpl; auto.
Qed.

(** Invariant: every call keeps the ids in use positive and below the next
    id of the store. *)
Lemma perform_ids_fresh (w : World MemDAO.Store) (r : Controller.Request) :
  MemDAO.ids_fresh (store w) ->
  MemDAO.ids_fresh (store (snd (Controller.perform MemDAO.dao r w))).
Proof.
  intros [Hnext Hids].
  pose proof (perform_messages w r) as H. cbv zeta in H.
  unfold MemDAO.ids_fresh.
  destruct r as [name | name | msg author | id | | id];
    cbv beta iota in H;
    try (destruct H as [-> ->]; split; assumption).
  - destruct (fst (Controller.perform MemDAO.dao _ w)) as [res|e];
      [|destruct H as [-> ->]; split; assumption].
    destruct H as (u & -> & ->). split; [lia|].
    apply Forall_app. split.
    + eapply Forall_impl; [exact Hids|]. simpl. intros m Hm. lia.
    + constructor; [simpl; lia | constructor].
  - destruct (fst (Controller.perform MemDAO.dao _ w)) as [res|e];
      [|destruct H as [-> ->]; split; assumption].
    destruct H as [-> ->]. split; [assumption|].
    apply Forall_forall. intros m Hm.
    apply list_elem_of_In, filter_In in Hm. destruct Hm as [Hm _].
    rewrite Forall_forall in Hids. apply Hids, list_elem_of_In, Hm.
Qed.

Lemma serve_ids_fresh (rs : list Controller.Request) (w : World MemDAO.Store) :
  MemDAO.ids_fresh (store w) ->
  MemDAO.ids_fresh (store (snd (Controller.serve MemDAO.dao rs w))).
Proof.
  revert w. induction rs as [|r rs IH]; intros w Hw; simpl; [exact Hw|].
  pose proof (perform_ids_fresh w r Hw) as H1.
  destruct (Controller.perform MemDAO.dao r w) as [o w1]. simpl in H1.
  specialize (IH w1 H1).
  destruct (Controller.serve MemDAO.dao rs w1) as [os w2]. exact IH.
Qed.

(** Without deletions the store holds one message more for every [addMsg]
    that returned. *)
Lemma serve_counts_added (rs : list Controller.Request) (w : World MemDAO.Store) :
  Forall (fun r => is_delete r = false) rs ->
  length (MemDAO.msgs (store (snd (Controller.serve MemDAO.dao rs w)))) =
  (length (MemDAO.msgs (store w)) +
   added rs (fst (Controller.serve MemDAO.dao rs w)))%nat.
Proof.
  intros Hrs. revert w.
  induction Hrs as [|r rs Hr _ IH]; intros w; simpl; [lia|].
  pose proof (perform_messages w r) as H. cbv zeta in H.
  destruct (Controller.perform MemDAO.dao r w) as [o w1]. simpl in H.
  specialize (IH w1).
  destruct (Controller.serve MemDAO.dao rs w1) as [os w2]. simpl in *.
  rewrite IH.
  destruct r as [name | name | msg author | id | | id]; try discriminate;
    cbv beta iota in H; try (destruct H as [-> _]; simpl; lia).
  destruct o as [res|e]; [|destruct H as [-> _]; simpl; lia].
  destruct H as (u & -> & _). rewrite length_app. simpl. lia.
Qed.

(** C8: in the in-memory store, [findAllMsgs] on a store without messages
    returns the empty list, and after a series of calls without deletions on
    such a store it returns as many messages as calls of [addMsg] returned
    one. *)
Theorem findAllMsgs_counts_added
      (rs : list Controller.Request) (w : World MemDAO.Store) :
  MemDAO.msgs (store w) = [] ->
  Forall (fun r => is_delete r = false) rs ->
  fst (Controller.findAllMsgs MemDAO.dao w) = Return [] /\
  exists ms,
    fst (Controller.findAllMsgs MemDAO.dao
           (snd (Controller.serve MemDAO.dao rs w))) = Return ms /\
    length ms = added rs (fst (Controller.serve MemDAO.dao rs w)).
Proof.
  intros Hempty Hrs. split.
  - unfold Controller.findAllMsgs, await. simpl. rewrite Hempty. reflexivity.
  - eexists. split.
    + unfold Controller.findAllMsgs, await. simpl. reflexivity.
    + rewrite (serve_counts_added rs w Hrs), Hempty. reflexivity.
Qed.

(** ** Login in the in-memory store *)

(** Replacing the rows of a user leaves exactly the replacement under the
    user's name. *)
Lemma lookup_after_update (name : string) (u' : UserDTO) (rows : list UserDTO) :
  username u' = name ->
  List.filter (MemDAO.has_username name)
    (map (fun row => if MemDAO.has_username (username u') row then u' else row)
         rows) =
  map (fun _ => u') (List.filter (MemDAO.has_username name) rows).
Proof.
  intros Hname. rewrite Hname.
  induction rows as [|row rows IH]; simpl; [reflexivity|].
  destruct (MemDAO.has_username name row) eqn:E; simpl.
  - unfold MemDAO.has_username at 1. rewrite Hname, String.eqb_refl.
    simpl. f_equal. exact IH.
  - rewrite E. exact IH.
Qed.

(** After a login the in-memory store answers a lookup of the name with the
    user as [login] left it: the new [loggedInUntil] has been persisted. *)
Lemma login_persists (w : World MemDAO.Store) (name : string)
      (u : UserDTO) (rest : list UserDTO) :
  let now := clock w (reads w) in
  let u' := set_loggedInUntil (TsDate (now + DAY)) u in
  alphanumeric name ->
  List.filter (MemDAO.has_username name) (MemDAO.users (store w)) = u :: rest ->
  Z.abs (now + DAY) <= MAX_TIME ->
  fst (ChatDAO.findUserByUsername MemDAO.dao name
         (store (snd (Controller.login MemDAO.dao name w)))) =
  Return (u' :: map (fun _ => u') rest).
Proof.
  intros now u' Hname Hrows Hrange.
  assert (Hu : username u' = name).
  { assert (Hin : In u (List.filter (MemDAO.has_username name)
                                    (MemDAO.users (store w)))).
    { rewrite Hrows. left. reflexivity. }
    apply filter_In in Hin. destruct Hin as [_ Hin].
    apply String.eqb_eq in Hin. exact Hin. }
  rewrite (login_found MemDAO.dao w name u rest (store w)
             (snd (MemDAO.updateUser u' (store w))) Hname);
    [| simpl; unfold MemDAO.findUserByUsername; rewrite Hrows; reflexivity
     | exact Hrange | reflexivity].
  simpl. unfold MemDAO.findUserByUsername. simpl.
  rewrite (lookup_after_update name u' _ Hu), Hrows. reflexivity.
Qed.

(** A login lasts: in the in-memory store, a check that follows a login
    returns the user as long as the clock has not passed the new expiry. *)
Lemma login_then_isLoggedIn (w : World MemDAO.Store) (name : string)
      (u : UserDTO) (rest : list UserDTO) :
  let now := clock w (reads w) in
  let later := clock w (S (reads w)) in
  let w1 := snd (Controller.login MemDAO.dao name w) in
  alphanumeric name ->
  List.filter (MemDAO.has_username name) (MemDAO.users (store w)) = u :: rest ->
  Z.abs (now + DAY) <= MAX_TIME ->
  fst (Controller.isLoggedIn MemDAO.dao name w1) =
  if now + DAY <? later then Return None
  else Return (Some (length (heap w1))).
Proof.
  intros now later w1 Hname Hrows Hrange.
  set (u' := set_loggedInUntil (TsDate (now + DAY)) u).
  assert (Hfind : ChatDAO.findUserByUsername MemDAO.dao name (store w1)
                  = (Return (u' :: map (fun _ => u') rest), store w1)).
  { pose proof (login_persists w name u rest Hname Hrows Hrange) as H.
    cbv zeta in H. fold now in H. fold u' in H. fold w1 in H.
    simpl in *. unfold MemDAO.findUserByUsername in *. simpl in *.
    congruence. }
  rewrite (isLoggedIn_found_date MemDAO.dao w1 name u' _ (store w1)
             (now + DAY) Hname Hfind eq_refl).
  assert (Hw1 : clock w1 (reads w1) = later).
  { subst w1.
    rewrite (login_found MemDAO.dao w name u rest (store w)
               (snd (MemDAO.updateUser u' (store w))) Hname);
      [reflexivity
      | simpl; unfold MemDAO.findUserByUsername; rewrite Hrows; reflexivity
      | exact Hrange | reflexivity]. }
  rewrite Hw1. destruct (now + DAY <? later); reflexivity.
Qed.

(** The store the application starts with satisfies the invariant on ids. *)
Lemma empty_ids_fresh : MemDAO.ids_fresh MemDAO.empty.
Proof. split; [reflexivity | constructor]. Qed.

(** ** The properties at concrete inputs *)

Lemma alphanumeric_alice : alphanumeric "alice".
Proof. split; [discriminate | reflexivity]. Defined.

Lemma alphanumeric_bob : alphanumeric "bob".
Proof. split; [discriminate | reflexivity]. Defined.

Lemma alphanumeric_carol : alphanumeric "carol".
Proof. split; [discriminate | reflexivity]. Defined.

(** C1, as stated, fails: bob's login expires at 1000 and the clock reads
    1000 at the check, so [loggedInUntil] is not strictly after the current
    time, and yet [isLoggedIn] returns bob and not null. *)
Lemma isLoggedIn_at_expiry_returns_user :
  loggedInUntil bob = TsDate 1000 /\
  clock world_at_1000 (reads world_at_1000) = 1000 /\
  fst (Controller.isLoggedIn MemDAO.dao "bob" world_at_1000)
    = Return (Some 0%nat) /\
  heap (snd (Controller.isLoggedIn MemDAO.dao "bob" world_at_1000)) !! 0%nat
    = Some bob /\
  ~ (fst (Controller.isLoggedIn MemDAO.dao "bob" world_at_1000) <> Return None
     <-> clock world_at_1000 (reads world_at_1000) < 1000).
Proof.
  repeat split.
  intros [H _].
  assert (Hlt : clock world_at_1000 (reads world_at_1000) < 1000).
  { apply H. discriminate. }
  simpl in Hlt. lia.
Qed.

Lemma isLoggedIn_iff_not_before_witness :
  (1000 < clock world_at_1001 (reads world_at_1001) <->
   fst (Controller.isLoggedIn MemDAO.dao "bob" world_at_1001) = Return None) /\
  (clock world_at_1001 (reads world_at_1001) <= 1000 <->
   exists l,
     fst (Controller.isLoggedIn MemDAO.dao "bob" world_at_1001)
       = Return (Some l) /\
     heap (snd (Controller.isLoggedIn MemDAO.dao "bob" world_at_1001)) !! l
       = Some bob).
Proof.
  exact (isLoggedIn_iff_not_before MemDAO.dao world_at_1001 "bob" bob []
           sample_store 1000 alphanumeric_bob eq_refl eq_refl).
Defined.

(** C2, the code at the failing input: alice never logged in, her
    [loggedInUntil] is null, and [isLoggedIn] returns her instead of null. *)
Theorem isLoggedIn_absent_expiry_returns_user :
  loggedInUntil alice = TsNull /\
  fst (Controller.isLoggedIn MemDAO.dao "alice" world_at_5)
    = Return (Some 0%nat) /\
  heap (snd (Controller.isLoggedIn MemDAO.dao "alice" world_at_5)) !! 0%nat
    = Some alice.
Proof. repeat split. Qed.

Lemma login_extends_session_witness :
  exists l,
    fst (Controller.login MemDAO.dao "alice" world_at_5) = Return (Some l) /\
    heap (snd (Controller.login MemDAO.dao "alice" world_at_5)) !! l
      = Some (mkUserDTO "alice" (TsDate 86400005)) /\
    loggedInUntil (mkUserDTO "alice" (TsDate 86400005))
      = TsDate (5 + 24 * 3600000) /\
    calls_since world_at_5 (snd (Controller.login MemDAO.dao "alice" world_at_5))
      = [CallFindUserByUsername "alice";
         CallUpdateUser (mkUserDTO "alice" (TsDate 86400005))] /\
    store (snd (Controller.login MemDAO.dao "alice" world_at_5))
      = MemDAO.mkStore [mkUserDTO "alice" (TsDate 86400005); bob] [] 1.
Proof.
  refine (login_extends_session MemDAO.dao world_at_5 "alice" alice []
            sample_store _ alphanumeric_alice eq_refl _ eq_refl).
  vm_compute. discriminate.
Defined.

Lemma unknown_user_gives_null_witness :
  fst (Controller.login MemDAO.dao "carol" world_at_5) = Return None /\
  fst (Controller.isLoggedIn MemDAO.dao "carol" world_at_5) = Return None.
Proof.
  exact (unknown_user_gives_null MemDAO.dao world_at_5 "carol" sample_store
           alphanumeric_carol eq_refl).
Defined.

Lemma invalid_input_throws_before_dao_witness :
  Controller.perform MemDAO.dao (Controller.FindMsg (-1)) world_at_5
  = (Throw ValidationError, world_at_5).
Proof.
  apply (invalid_input_throws_before_dao MemDAO.dao world_at_5
           (Controller.FindMsg (-1))).
  simpl. lia.
Defined.

Lemma addMsg_then_findMsg_witness :
  exists m w1 w2,
    Controller.addMsg MemDAO.dao "hello" (VUserDTO 0%nat)
      (snd (Controller.login MemDAO.dao "alice" world_at_5)) = (Return m, w1) /\
    Controller.findMsg MemDAO.dao (msgId m) w1 = (Return (Some m), w2) /\
    msgBody m = "hello" /\
    msgAuthor m = mkUserDTO "alice" (TsDate 86400005).
Proof.
  apply (addMsg_then_findMsg
           (snd (Controller.login MemDAO.dao "alice" world_at_5)) "hello" 0%nat).
  - discriminate.
  - reflexivity.
  - split; [reflexivity | constructor].
Defined.

Lemma deleteMsg_then_findMsg_witness :
  exists w1 w2,
    Controller.deleteMsg MemDAO.dao 7 world_at_5 = (Return tt, w1) /\
    Controller.findMsg MemDAO.dao 7 w1 = (Return None, w2).
Proof.
  apply (deleteMsg_then_findMsg world_at_5 7). reflexivity.
Defined.

Lemma findAllMsgs_counts_added_witness :
  added sample_calls (fst (Controller.serve MemDAO.dao sample_calls world_at_5))
    = 2%nat /\
  fst (Controller.findAllMsgs MemDAO.dao world_at_5) = Return [] /\
  exists ms,
    fst (Controller.findAllMsgs MemDAO.dao
           (snd (Controller.serve MemDAO.dao sample_calls world_at_5)))
      = Return ms /\
    length ms =
      added sample_calls
            (fst (Controller.serve MemDAO.dao sample_calls world_at_5)).
Proof.
  split; [reflexivity|].
  apply (findAllMsgs_counts_added sample_calls world_at_5).
  - reflexivity.
  - repeat constructor.
Defined.

Lemma isLoggedIn_writes_nothing_witness :
  calls_since world_at_5
              (snd (Controller.isLoggedIn MemDAO.dao "bob" world_at_5))
    = [CallFindUserByUsername "bob"] /\
  Forall (fun c => mutating c = false)
         (calls_since world_at_5
                      (snd (Controller.isLoggedIn MemDAO.dao "bob" world_at_5))) /\
  store (snd (Controller.isLoggedIn MemDAO.dao "bob" world_at_5))
    = store world_at_5 /\
  heap (snd (Controller.isLoggedIn MemDAO.dao "bob" world_at_5))
    = heap world_at_5 ++ [bob].
Proof.
  exact (isLoggedIn_writes_nothing MemDAO.dao world_at_5 "bob"
           alphanumeric_bob eq_refl).
Defined.

Lemma login_unknown_user_writes_nothing_witness :
  fst (Controller.login MemDAO.dao "carol" world_at_5) = Return None /\
  calls_since world_at_5 (snd (Controller.login MemDAO.dao "carol" world_at_5))
    = [CallFindUserByUsername "carol"] /\
  Forall (fun c => mutating c = false)
         (calls_since world_at_5
                      (snd (Controller.login MemDAO.dao "carol" world_at_5))) /\
  store (snd (Controller.login MemDAO.dao "carol" world_at_5))
    = store world_at_5 /\
  heap (snd (Controller.login MemDAO.dao "carol" world_at_5))
    = heap world_at_5.
Proof.
  exact (login_unknown_user_writes_nothing MemDAO.dao world_at_5 "carol"
           alphanumeric_carol eq_refl).
Defined.

(** ** Further properties of the controller, over any DAO *)

Section ControllerMore.

Context {DB : Type} (dao : ChatDAO.t DB).

Ltac accept_name Hname :=
  rewrite (isNonZeroLengthString_accepts _ (proj1 Hname)); simpl;
  rewrite (isAlnumString_accepts _ Hname); simpl.

(** X1: when the lookup of a valid username throws, [login] and [isLoggedIn]
    throw the same error right after it: [updateUser] is not called, the clock
    is not read and no object is made or changed. *)
Theorem lookup_failure_propagates (w : World DB) (name : string)
      (e : Error) (st : DB) :
  alphanumeric name ->
  ChatDAO.findUserByUsername dao name (store w) = (Throw e, st) ->
  Controller.login dao name w =
    (Throw e, mkWorld st (heap w) (clock w) (reads w)
                      (calls w ++ [CallFindUserByUsername name])) /\
  Controller.isLoggedIn dao name w =
    (Throw e, mkWorld st (heap w) (clock w) (reads w)
                      (calls w ++ [CallFindUserByUsername name])).
Proof.
  intros Hname Hfind.
  unfold Controller.login, Controller.isLoggedIn, bind, sync, await.
  accept_name Hname. rewrite Hfind. split; reflexivity.
Qed.

(** [login] when the lookup finds a user, whatever the clock reads and
    whatever [updateUser] answers. *)
Lemma login_found_any (w : World DB) (name : string)
      (u : UserDTO) (rest : list UserDTO) (st1 : DB) :
  let now := clock w (reads w) in
  let u' := set_loggedInUntil (new_Date (Num (now + DAY))) u in
  alphanumeric name ->
  ChatDAO.findUserByUsername dao name (store w) = (Return (u :: rest), st1) ->
  Controller.login dao name w =
  (match fst (ChatDAO.updateUser dao u' st1) with
   | Return _ => Return (Some (length (heap w)))
   | Throw e => Throw e
   end,
   mkWorld (snd (ChatDAO.updateUser dao u' st1)) (heap w ++ u' :: rest)
           (clock w) (S (reads w))
           (calls w ++ [CallFindUserByUsername name; CallUpdateUser u'])).
Proof.
  intros now u' Hname Hfind.
  unfold Controller.login, Controller.setUsersStatusToLoggedIn,
         moment_now, read_clock, assign_loggedInUntil, deref,
         bind, sync, await, alloc, ret.
  accept_name Hname. rewrite Hfind. simpl.
  change (24 * 3600000) with DAY. fold now.
  change (if Z.abs (now + DAY) <=? MAX_TIME then TsDate (now + DAY)
          else TsInvalidDate) with (new_Date (Num (now + DAY))).
  rewrite alter_fresh, lookup_fresh. fold u'. simpl.
  destruct (ChatDAO.updateUser dao u' st1) as [[[]|e] st2]; simpl;
    rewrite <- app_assoc; reflexivity.
Qed.

(** X2: when the lookup finds a user and [updateUser] throws, [login] throws
    the same error and returns no user; by then the user object already
    carries the new [loggedInUntil], and both DAO calls have been made. *)
Theorem update_failure_propagates (w : World DB) (name : string)
      (u : UserDTO) (rest : list UserDTO) (st1 st2 : DB) (e : Error) :
  let now := clock w (reads w) in
  let u' := set_loggedInUntil (new_Date (Num (now + DAY))) u in
  alphanumeric name ->
  ChatDAO.findUserByUsername dao name (store w) = (Return (u :: rest), st1) ->
  ChatDAO.updateUser dao u' st1 = (Throw e, st2) ->
  let r := Controller.login dao name w in
  fst r = Throw e /\
  store (snd r) = st2 /\
  heap (snd r) !! length (heap w) = Some u' /\
  calls_since w (snd r) = [CallFindUserByUsername name; CallUpdateUser u'].
Proof.
  intros now u' Hname Hfind Hupd r. subst r.
  rewrite (login_found_any w name u rest st1 Hname Hfind).
  fold now. fold u'. rewrite Hupd. simpl. repeat split.
  - apply lookup_fresh.
  - unfold calls_since. simpl. apply drop_app_length.
Qed.

(** X3: when the lookup answers with several users, [login] changes the
    first one only, and of that one the [loggedInUntil] field only, which
    becomes the date 24 hours past the reading of the clock: the username
    stays and the other users answered are left as answered.  The DAO calls
    are the lookup and then one [updateUser], with the first user so
    changed, and the store is the one [updateUser] leaves, whatever it
    answers. *)
Theorem login_changes_first_user_only (w : World DB) (name : string)
      (u : UserDTO) (rest : list UserDTO) (st1 : DB) :
  let now := clock w (reads w) in
  let u' := mkUserDTO (username u) (new_Date (Num (now + 24 * 3600000))) in
  alphanumeric name ->
  ChatDAO.findUserByUsername dao name (store w) = (Return (u :: rest), st1) ->
  let w' := snd (Controller.login dao name w) in
  heap w' = heap w ++ u' :: rest /\
  calls_since w w' = [CallFindUserByUsername name; CallUpdateUser u'] /\
  store w' = snd (ChatDAO.updateUser dao u' st1).
Proof.
  intros now u' Hname Hfind w'. subst w'.
  rewrite (login_found_any w name u rest st1 Hname Hfind). simpl.
  repeat split.
  unfold calls_since. simpl. apply drop_app_length.
Qed.

(** X4: a found user whose [loggedInUntil] is null or an invalid date never
    expires: whatever the clock reads, [isLoggedIn] returns the user. *)
Theorem isLoggedIn_without_valid_date (w : World DB) (name : string)
      (u : UserDTO) (rest : list UserDTO) (st : DB) :
  alphanumeric name ->
  ChatDAO.findUserByUsername dao name (store w) = (Return (u :: rest), st) ->
  loggedInUntil u = TsNull \/ loggedInUntil u = TsInvalidDate ->
  let r := Controller.isLoggedIn dao name w in
  fst r = Return (Some (length (heap w))) /\
  heap (snd r) !! length (heap w) = Some u /\
  reads (snd r) = S (reads w).
Proof.
  intros Hname Hfind Hts r. subst r.
  unfold Controller.isLoggedIn, bind, sync, await, alloc, ret.
  accept_name Hname. rewrite Hfind. simpl.
  unfold deref. simpl. rewrite lookup_fresh.
  destruct Hts as [-> | ->]; simpl; repeat split; apply lookup_fresh.
Qed.

(** X5: for a found user without a [loggedInUntil] field, [isLoggedIn] reads
    the clock twice, once for the moment it makes of the missing field and
    once for the current time, and returns null exactly when the second
    reading is later than the first; otherwise it returns the user. *)
Theorem isLoggedIn_without_field (w : World DB) (name : string)
      (u : UserDTO) (rest : list UserDTO) (st : DB) :
  alphanumeric name ->
  ChatDAO.findUserByUsername dao name (store w) = (Return (u :: rest), st) ->
  loggedInUntil u = TsUndefined ->
  let r := Controller.isLoggedIn dao name w in
  (fst r = Return None <-> clock w (reads w) < clock w (S (reads w))) /\
  (fst r = Return (Some (length (heap w))) <->
   clock w (S (reads w)) <= clock w (reads w)) /\
  reads (snd r) = S (S (reads w)).
Proof.
  intros Hname Hfind Hundef r. subst r.
  rewrite (isLoggedIn_found_undefined dao w name u rest st Hname Hfind Hundef).
  destruct (clock w (reads w) <? clock w (S (reads w))) eqn:E; simpl.
  - apply Z.ltb_lt in E. repeat split; intros; try lia; try discriminate.
  - apply Z.ltb_ge in E. repeat split; intros; try lia; try discriminate.
Qed.

End ControllerMore.

(** ** What every operation leaves alone *)

Section ControllerFrame.

Context {DB : Type} (dao : ChatDAO.t DB).

Ltac pick_trace :=
  simpl;
  first [ reflexivity
        | left; reflexivity
        | right; reflexivity
        | right; left; reflexivity
        | right; eexists; reflexivity
        | right; right; eexists; reflexivity ].

Ltac close_frame :=
  simpl; split; [reflexivity|]; split;
  [ first [ exists []; rewrite app_nil_r; reflexivity
          | eexists; reflexivity ]
  | first [ exists []; split; [rewrite app_nil_r; reflexivity | pick_trace]
          | eexists; split; [reflexivity | pick_trace]
          | eexists; split; [rewrite <- app_assoc; reflexivity | pick_trace] ] ].

(** One call, over any DAO and with any argument: the clock is the same, the
    heap grows at its end, and the trace grows by the calls the operation is
    entitled to. *)
Lemma perform_frame (w : World DB) (r : Controller.Request) :
  let w' := snd (Controller.perform dao r w) in
  clock w' = clock w /\
  (exists fresh, heap w' = heap w ++ fresh) /\
  (exists cs, calls w' = calls w ++ cs /\ call_discipline r cs).
Proof.
  destruct r as [name | name | msg author | id | | id]; cbv zeta; run_controller.
  - destruct (negb (Nat.eqb (String.length name) 0)); simpl; [|close_frame].
    destruct (Validators.all_alnum name); simpl; [|close_frame].
    destruct (ChatDAO.findUserByUsername dao name (store w)) as [[rows|e] st];
      simpl; [|close_frame].
    destruct rows as [|u rest]; simpl; [close_frame|].
    rewrite alter_fresh, lookup_fresh. simpl.
    destruct (ChatDAO.updateUser dao _ st) as [[[]|e] st2]; close_frame.
  - destruct (negb (Nat.eqb (String.length name) 0)); simpl; [|close_frame].
    destruct (Validators.all_alnum name); simpl; [|close_frame].
    destruct (ChatDAO.findUserByUsername dao name (store w)) as [[rows|e] st];
      simpl; [|close_frame].
    destruct rows as [|u rest]; simpl; [close_frame|].
    rewrite lookup_fresh. simpl.
    destruct (loggedInUntil u); simpl;
      try match goal with |- context [if ?b then _ else _] => destruct b end;
      close_frame.
  - destruct (negb (Nat.eqb (String.length msg) 0)); simpl; [|close_frame].
    destruct author; simpl; try close_frame.
    destruct (heap w !! l) as [u|]; simpl; [|close_frame].
    destruct (ChatDAO.createMsg dao msg u (store w)) as [[m|e] st]; close_frame.
  - destruct (1 <=? id); simpl; [|close_frame].
    destruct (ChatDAO.findMsgById dao id (store w)) as [[m|e] st]; close_frame.
  - destruct (ChatDAO.findAllMsgs dao (store w)) as [[ms|e] st]; close_frame.
  - destruct (1 <=? id); simpl; [|close_frame].
    destruct (ChatDAO.deleteMsg dao id (store w)) as [[[]|e] st]; close_frame.
Qed.

(** X7: whatever the argument and whatever the DAO answers, an operation
    makes only the DAO calls that are its own, in a fixed order: [login] a
    lookup and then at most one [updateUser]; [isLoggedIn] at most a lookup;
    [addMsg], [findMsg] and [deleteMsg] at most their one operation; and
    [findAllMsgs] exactly one.  So the operations that read call nothing that
    writes, and none of them calls [createTables]. *)
Theorem operations_keep_call_discipline (w : World DB) (r : Controller.Request) :
  let cs := calls_since w (snd (Controller.perform dao r w)) in
  calls (snd (Controller.perform dao r w)) = calls w ++ cs /\
  call_discipline r cs /\
  ~ In CallCreateTables cs /\
  (length cs <= 2)%nat /\
  (match r with
   | Controller.IsLoggedIn _ | Controller.FindMsg _ | Controller.FindAllMsgs =>
       Forall (fun c => mutating c = false) cs
   | _ => (length (List.filter mutating cs) <= 1)%nat
   end).
Proof.
  cbv zeta.
  destruct (perform_frame w r) as (_ & _ & cs & Hcs & Hd).
  unfold calls_since. rewrite Hcs, drop_app_length.
  split; [reflexivity|]. split; [exact Hd|].
  destruct r as [name | name | msg author | id | | id]; simpl in Hd;
    repeat match goal with
           | H : _ \/ _ |- _ => destruct H
           | H : exists _, _ |- _ => destruct H
           end;
    subst cs; simpl; repeat split; try lia; try (repeat constructor);
    try (intros [H|H]; try discriminate; try contradiction;
         destruct H as [H|H]; try discriminate; contradiction).
Qed.

(** X6: with arguments that pass the checks, the operations on messages add
    nothing to the one DAO operation behind them: the caller gets its result
    or its error as it is, the store is the one it leaves, the call is the
    only one made, and neither the heap nor the clock is touched. *)
Theorem message_operations_delegate (w : World DB) (r : Controller.Request)
      (c : DaoCall) (o : Outcome Controller.Response) (st : DB) :
  valid_request w r ->
  dao_operation dao w r = Some (c, o, st) ->
  Controller.perform dao r w =
  (o, mkWorld st (heap w) (clock w) (reads w) (calls w ++ [c])).
Proof.
  destruct r as [name | name | msg author | id | | id]; simpl;
    intros Hvalid Hop; try discriminate;
    unfold Controller.addMsg, Controller.findMsg, Controller.findAllMsgs,
           Controller.deleteMsg, bind, sync, await, deref, ret.
  - destruct Hvalid as (Hmsg & l & u & -> & Hl).
    rewrite Hl in Hop.
    rewrite (isNonZeroLengthString_accepts _ Hmsg). simpl. rewrite Hl.
    destruct (ChatDAO.createMsg dao msg u (store w)) as [[m|e] st'];
      inversion Hop; subst; reflexivity.
  - rewrite (isPositiveInteger_accepts _ Hvalid).
    destruct (ChatDAO.findMsgById dao id (store w)) as [[m|e] st'];
      inversion Hop; subst; reflexivity.
  - destruct (ChatDAO.findAllMsgs dao (store w)) as [[ms|e] st'];
      inversion Hop; subst; reflexivity.
  - rewrite (isPositiveInteger_accepts _ Hvalid).
    destruct (ChatDAO.deleteMsg dao id (store w)) as [[[]|e] st'];
      inversion Hop; subst; reflexivity.
Qed.

(** X9: the controller raises no error of its own on arguments that pass
    the checks: over a DAO that does not throw, such a call returns. *)
Theorem valid_request_returns (w : World DB) (r : Controller.Request) :
  never_throws dao ->
  valid_request w r ->
  exists res w', Controller.perform dao r w = (Return res, w').
Proof.
  intros (Hfind & Hupd & Hcreate & Hbyid & Hall & Hdel) Hvalid.
  destruct r as [name | name | msg author | id | | id]; simpl in Hvalid;
    unfold Controller.perform, Controller.login, Controller.isLoggedIn,
           Controller.addMsg, Controller.findMsg, Controller.findAllMsgs,
           Controller.deleteMsg, Controller.setUsersStatusToLoggedIn,
           moment, moment_now, read_clock, assign_loggedInUntil, deref,
           bind, sync, await, alloc, ret.
  - rewrite (isNonZeroLengthString_accepts _ (proj1 Hvalid)).
    rewrite (isAlnumString_accepts _ Hvalid). simpl.
    pose proof (Hfind name (store w)) as Hf.
    destruct (ChatDAO.findUserByUsername dao name (store w)) as [[rows|e] st];
      [|exfalso; exact (Hf e eq_refl)]. simpl.
    destruct rows as [|u rest]; simpl; [eauto|].
    rewrite alter_fresh, lookup_fresh. simpl.
    match goal with
    | |- context [ChatDAO.updateUser dao ?x st] =>
        pose proof (Hupd x st) as Hu;
        destruct (ChatDAO.updateUser dao x st) as [[[]|e] st2]
    end; [simpl; eauto | exfalso; exact (Hu e eq_refl)].
  - rewrite (isNonZeroLengthString_accepts _ (proj1 Hvalid)).
    rewrite (isAlnumString_accepts _ Hvalid). simpl.
    pose proof (Hfind name (store w)) as Hf.
    destruct (ChatDAO.findUserByUsername dao name (store w)) as [[rows|e] st];
      [|exfalso; exact (Hf e eq_refl)]. simpl.
    destruct rows as [|u rest]; simpl; [eauto|].
    rewrite lookup_fresh. simpl.
    destruct (loggedInUntil u); simpl;
      try match goal with |- context [if ?b then _ else _] => destruct b end;
      simpl; eauto.
  - destruct Hvalid as (Hmsg & l & u & -> & Hl).
    rewrite (isNonZeroLengthString_accepts _ Hmsg). simpl.
    rewrite Hl. simpl.
    pose proof (Hcreate msg u (store w)) as Hc.
    destruct (ChatDAO.createMsg dao msg u (store w)) as [[m|e] st];
      [simpl; eauto | exfalso; exact (Hc e eq_refl)].
  - rewrite (isPositiveInteger_accepts _ Hvalid). simpl.
    pose proof (Hbyid id (store w)) as Hb.
    destruct (ChatDAO.findMsgById dao id (store w)) as [[m|e] st];
      [simpl; eauto | exfalso; exact (Hb e eq_refl)].
  - pose proof (Hall (store w)) as Ha.
    destruct (ChatDAO.findAllMsgs dao (store w)) as [[ms|e] st];
      [simpl; eauto | exfalso; exact (Ha e eq_refl)].
  - rewrite (isPositiveInteger_accepts _ Hvalid). simpl.
    pose proof (Hdel id (store w)) as Hd.
    destruct (ChatDAO.deleteMsg dao id (store w)) as [[[]|e] st];
      [simpl; eauto | exfalso; exact (Hd e eq_refl)].
Qed.

(** X10: a login lasts 24 hours, the last millisecond included.  When
    [login] has set the expiry of a user and the DAO then answers a lookup of
    the name with the user so updated, a check made when the clock reads
    [later] returns null exactly when [later] is past the reading of the
    login by more than 24 hours, and the user otherwise. *)
Theorem login_lasts_24_hours (w : World DB) (name : string)
      (u : UserDTO) (rest rest' : list UserDTO) (st1 st2 st3 : DB) :
  let now := clock w (reads w) in
  let later := clock w (S (reads w)) in
  let u' := set_loggedInUntil (TsDate (now + DAY)) u in
  alphanumeric name ->
  ChatDAO.findUserByUsername dao name (store w) = (Return (u :: rest), st1) ->
  Z.abs (now + DAY) <= MAX_TIME ->
  ChatDAO.updateUser dao u' st1 = (Return tt, st2) ->
  ChatDAO.findUserByUsername dao name st2 = (Return (u' :: rest'), st3) ->
  let r := Controller.isLoggedIn dao name (snd (Controller.login dao name w)) in
  (fst r = Return None <-> now + 24 * 3600000 < later) /\
  (later <= now + 24 * 3600000 <->
   exists l, fst r = Return (Some l) /\ heap (snd r) !! l = Some u').
Proof.
  intros now later u' Hname Hfind Hrange Hupd Hfind' r. subst r.
  rewrite (login_found dao w name u rest st1 st2 Hname Hfind Hrange Hupd).
  fold now. fold u'. simpl.
  match goal with
  | |- context [Controller.isLoggedIn dao name ?w1] =>
      rewrite (isLoggedIn_found_date dao w1 name u' rest' st3 (now + DAY)
                 Hname Hfind' eq_refl)
  end.
  simpl. fold later. change (24 * 3600000) with DAY.
  destruct (now + DAY <? later) eqn:E; simpl.
  - apply Z.ltb_lt in E. split; split; intro H; try reflexivity; try lia.
    destruct H as (l & H & _). discriminate.
  - apply Z.ltb_ge in E. split; split; intro H; try lia; try discriminate.
    eexists. split; [reflexivity | apply lookup_fresh].
Qed.

End ControllerFrame.

(** ** What the results tell the caller *)

Section ControllerResults.

Context {DB : Type} (dao : ChatDAO.t DB).

Ltac accept_username Hname :=
  rewrite (isNonZeroLengthString_accepts _ (proj1 Hname)); simpl;
  rewrite (isAlnumString_accepts _ Hname); simpl.

(** X11: [isLoggedIn] does not prolong a login.  Whenever it returns a user,
    for a valid username and whatever the expiry holds, that user is the
    first row the lookup answered, with the [loggedInUntil] it was found
    with. *)
Theorem isLoggedIn_returns_user_as_found (w : World DB) (name : string)
      (rows : list UserDTO) (st : DB) (l : loc) :
  alphanumeric name ->
  ChatDAO.findUserByUsername dao name (store w) = (Return rows, st) ->
  fst (Controller.isLoggedIn dao name w) = Return (Some l) ->
  exists u rest,
    rows = u :: rest /\
    heap (snd (Controller.isLoggedIn dao name w)) !! l = Some u.
Proof.
  intros Hname Hfind.
  unfold Controller.isLoggedIn, bind, sync, await, alloc, ret.
  accept_username Hname. rewrite Hfind. simpl.
  destruct rows as [|u rest]; simpl; [discriminate|].
  unfold deref. simpl. rewrite lookup_fresh.
  destruct (loggedInUntil u); simpl;
    try match goal with |- context [if ?b then _ else _] => destruct b end;
    simpl; intros H; inversion H; subst;
    exists u, rest; (split; [reflexivity | apply lookup_fresh]).
Qed.

(** X12: what the result of [login] tells, for a valid username whose
    lookup returns.  It is null exactly when the lookup answered with no
    user.  A user it returns is the first one answered, at the address that
    one got, with the [loggedInUntil] that [login] has just set.  An error it
    throws is the error of [updateUser] on that user. *)
Theorem login_null_iff_no_user (w : World DB) (name : string)
      (rows : list UserDTO) (st : DB) :
  let now := clock w (reads w) in
  let logged_in := set_loggedInUntil (new_Date (Num (now + 24 * 3600000))) in
  alphanumeric name ->
  ChatDAO.findUserByUsername dao name (store w) = (Return rows, st) ->
  let r := Controller.login dao name w in
  (fst r = Return None <-> rows = []) /\
  (forall l, fst r = Return (Some l) ->
     l = length (heap w) /\
     exists u rest,
       rows = u :: rest /\ heap (snd r) !! l = Some (logged_in u) /\
       fst (ChatDAO.updateUser dao (logged_in u) st) = Return tt) /\
  (forall e, fst r = Throw e ->
     exists u rest,
       rows = u :: rest /\
       fst (ChatDAO.updateUser dao (logged_in u) st) = Throw e).
Proof.
  intros now logged_in Hname Hfind r. subst r. destruct rows as [|u rest].
  - rewrite (login_not_found dao w name st Hname Hfind). simpl.
    repeat split; intros; discriminate.
  - rewrite (login_found_any dao w name u rest st Hname Hfind).
    change (clock w (reads w) + DAY) with (now + 24 * 3600000).
    fold (logged_in u). simpl.
    destruct (fst (ChatDAO.updateUser dao (logged_in u) st)) as [[]|e] eqn:Hupd;
      repeat split; intros; try discriminate.
    + congruence.
    + exists u, rest. inversion H; subst.
      repeat split; [apply lookup_fresh | exact Hupd].
    + exists u, rest. inversion H; subst. split; [reflexivity | exact Hupd].
Qed.

End ControllerResults.

(** ** The further properties at concrete inputs *)

Lemma alphanumeric_dave : alphanumeric "dave".
Proof. split; [discriminate | reflexivity]. Defined.

Lemma alphanumeric_erin : alphanumeric "erin".
Proof. split; [discriminate | reflexivity]. Defined.

Lemma MemDAO_never_throws : never_throws MemDAO.dao.
Proof. repeat split; intros; simpl; discriminate. Defined.

Lemma lookup_failure_propagates_witness :
  Controller.login unreachable_dao "alice" world_unreachable =
    (Throw PersistenceError,
     mkWorld tt [] (clock world_unreachable) 0%nat
             [CallFindUserByUsername "alice"]) /\
  Controller.isLoggedIn unreachable_dao "alice" world_unreachable =
    (Throw PersistenceError,
     mkWorld tt [] (clock world_unreachable) 0%nat
             [CallFindUserByUsername "alice"]).
Proof.
  exact (lookup_failure_propagates unreachable_dao world_unreachable "alice"
           PersistenceError tt alphanumeric_alice eq_refl).
Defined.

Lemma update_failure_propagates_witness :
  fst (Controller.login readonly_dao "alice" world_at_5)
    = Throw PersistenceError /\
  store (snd (Controller.login readonly_dao "alice" world_at_5))
    = sample_store /\
  heap (snd (Controller.login readonly_dao "alice" world_at_5)) !! 0%nat
    = Some (mkUserDTO "alice" (TsDate 86400005)) /\
  calls_since world_at_5 (snd (Controller.login readonly_dao "alice" world_at_5))
    = [CallFindUserByUsername "alice";
       CallUpdateUser (mkUserDTO "alice" (TsDate 86400005))].
Proof.
  exact (update_failure_propagates readonly_dao world_at_5 "alice" alice []
           sample_store sample_store PersistenceError
           alphanumeric_alice eq_refl eq_refl).
Defined.

Lemma login_changes_first_user_only_witness :
  heap (snd (Controller.login MemDAO.dao "bob" world_twins))
    = heap world_twins ++ [mkUserDTO "bob" (TsDate 86400005); bob_again] /\
  calls_since world_twins (snd (Controller.login MemDAO.dao "bob" world_twins))
    = [CallFindUserByUsername "bob";
       CallUpdateUser (mkUserDTO "bob" (TsDate 86400005))] /\
  store (snd (Controller.login MemDAO.dao "bob" world_twins))
    = snd (MemDAO.updateUser (mkUserDTO "bob" (TsDate 86400005)) twin_store).
Proof.
  exact (login_changes_first_user_only MemDAO.dao world_twins "bob" bob
           [bob_again] twin_store alphanumeric_bob eq_refl).
Defined.

Lemma isLoggedIn_without_valid_date_witness :
  fst (Controller.isLoggedIn MemDAO.dao "dave" world_odd)
    = Return (Some 0%nat) /\
  heap (snd (Controller.isLoggedIn MemDAO.dao "dave" world_odd)) !! 0%nat
    = Some dave /\
  reads (snd (Controller.isLoggedIn MemDAO.dao "dave" world_odd)) = 1%nat.
Proof.
  exact (isLoggedIn_without_valid_date MemDAO.dao world_odd "dave" dave []
           odd_store alphanumeric_dave eq_refl (or_intror eq_refl)).
Defined.

Lemma isLoggedIn_without_field_witness :
  (fst (Controller.isLoggedIn MemDAO.dao "erin" world_ticking) = Return None
   <-> 5 < 6) /\
  (fst (Controller.isLoggedIn MemDAO.dao "erin" world_ticking)
     = Return (Some 0%nat) <-> 6 <= 5) /\
  reads (snd (Controller.isLoggedIn MemDAO.dao "erin" world_ticking)) = 2%nat.
Proof.
  exact (isLoggedIn_without_field MemDAO.dao world_ticking "erin" erin []
           odd_store alphanumeric_erin eq_refl eq_refl).
Defined.

Lemma message_operations_delegate_witness :
  Controller.perform readonly_dao (Controller.DeleteMsg 3) world_at_5 =
  (Throw PersistenceError,
   mkWorld sample_store [] (clock world_at_5) 0%nat [CallDeleteMsg 3]).
Proof.
  apply (message_operations_delegate readonly_dao world_at_5
           (Controller.DeleteMsg 3)).
  - reflexivity.
  - reflexivity.
Defined.

Lemma valid_request_returns_witness :
  exists res w',
    Controller.perform MemDAO.dao (Controller.Login "alice") world_at_5
    = (Return res, w').
Proof.
  apply (valid_request_returns MemDAO.dao world_at_5 (Controller.Login "alice")).
  - exact MemDAO_never_throws.
  - exact alphanumeric_alice.
Defined.

Lemma login_lasts_24_hours_witness :
  (fst (Controller.isLoggedIn MemDAO.dao "alice"
          (snd (Controller.login MemDAO.dao "alice" world_at_5))) = Return None
   <-> 5 + 24 * 3600000 < 5) /\
  (5 <= 5 + 24 * 3600000 <->
   exists l,
     fst (Controller.isLoggedIn MemDAO.dao "alice"
            (snd (Controller.login MemDAO.dao "alice" world_at_5)))
       = Return (Some l) /\
     heap (snd (Controller.isLoggedIn MemDAO.dao "alice"
                  (snd (Controller.login MemDAO.dao "alice" world_at_5)))) !! l
       = Some (mkUserDTO "alice" (TsDate 86400005))).
Proof.
  refine (login_lasts_24_hours MemDAO.dao world_at_5 "alice" alice [] []
            sample_store _ _ alphanumeric_alice eq_refl _ eq_refl eq_refl).
  vm_compute. discriminate.
Defined.

Lemma isLoggedIn_returns_user_as_found_witness :
  exists u rest,
    [bob] = u :: rest /\
    heap (snd (Controller.isLoggedIn MemDAO.dao "bob" world_at_5)) !! 0%nat
    = Some u.
Proof.
  exact (isLoggedIn_returns_user_as_found MemDAO.dao world_at_5 "bob" [bob]
           sample_store 0%nat alphanumeric_bob eq_refl eq_refl).
Defined.

Lemma login_null_iff_no_user_witness :
  (fst (Controller.login MemDAO.dao "bob" world_twins) = Return None
   <-> [bob; bob_again] = []) /\
  (forall l,
     fst (Controller.login MemDAO.dao "bob" world_twins) = Return (Some l) ->
     l = 0%nat /\
     exists u rest,
       [bob; bob_again] = u :: rest /\
       heap (snd (Controller.login MemDAO.dao "bob" world_twins)) !! l
         = Some (set_loggedInUntil (TsDate 86400005) u) /\
       fst (MemDAO.updateUser (set_loggedInUntil (TsDate 86400005) u) twin_store)
         = Return tt) /\
  (forall e,
     fst (Controller.login MemDAO.dao "bob" world_twins) = Throw e ->
     exists u rest,
       [bob; bob_again] = u :: rest /\
       fst (MemDAO.updateUser (set_loggedInUntil (TsDate 86400005) u) twin_store)
         = Throw e).
Proof.
  exact (login_null_iff_no_user MemDAO.dao world_twins "bob" [bob; bob_again]
           twin_store alphanumeric_bob eq_refl).
Defined.
